(** * Frith vaults dApp: the [Screen] component of [src/App.tsx]

    A shallow embedding of what [Screen] computes on one render (the parsed
    amounts, the client-side validation flags, the [disabled] attribute of
    the two action buttons, the inline guidance) and of what its two click
    handlers do (the approve/deposit sequence and the redeem call).

    JavaScript [bigint] is [Z]; a [uint256] or [uint8] returned by a contract
    read is [N] resp. [nat]; the [data] of a read hook that has not resolved
    is [None] ([undefined] in the source). *)

From Stdlib Require Import ZArith NArith List String Ascii Bool Lia.
From Stdlib Require Import DecimalString DecimalN.
Import ListNotations.

Local Open Scope string_scope.
Local Open Scope Z_scope.

(** ** JavaScript values and truthiness

    The validation flags of [Screen] are chains of [&&] whose first operand
    is a [bigint | undefined]: such a chain evaluates to [undefined], to the
    [bigint] itself when it is [0n], or to the boolean on its right. *)
Module Js.

Inductive value : Type :=
| undefined
| bigint (n : Z)
| boolean (b : bool).

(** [ToBoolean] *)
Definition truthy (v : value) : bool :=
  match v with
  | undefined => false
  | bigint n => negb (n =? 0)
  | boolean b => b
  end.

(** [x && rhs] for [x : bigint | undefined]; [rhs] is evaluated, with [x]
    at hand, only when [x] is truthy. *)
Definition and_then (x : option N) (rhs : Z -> bool) : value :=
  match x with
  | None => undefined
  | Some n => if (Z.of_N n =? 0) then bigint 0 else boolean (rhs (Z.of_N n))
  end.

(** [x ?? d] *)
Definition nullish {A : Type} (x : option A) (d : A) : A :=
  match x with
  | Some v => v
  | None => d
  end.

(** [Boolean(x)] for [x : boolean | undefined] *)
Definition Boolean (x : option bool) : bool := nullish x false.

(** [!s] for [s : string | undefined]: the empty string is falsy too. *)
Definition not_str (s : option string) : bool :=
  match s with
  | None => true
  | Some a => String.eqb a ""
  end.

(** [s || d] for strings *)
Definition or_str (s d : string) : string :=
  if String.eqb s "" then d else s.

End Js.

(** ** Constants *)

Definition Address : Type := string.

Definition VAULT_ADDRESS : Address := "0xbfB71eD001E504C782cC60F4D2bb744854e19eD5".

(** [sepolia.id] *)
Definition sepolia_id : N := 11155111%N.

(** ** The inputs of one render *)

(** [useAccount()] *)
Record Account : Type := {
  address : option Address;
  chainId : option N;
  isConnected : bool
}.

(** The [data] of the [useReadContract] hooks that the engine uses.  The two
    preview reads are keyed by their argument: [previewDepositQuery a] is the
    cached result for [args: [a]], [None] while it has not resolved. *)
Record Reads : Type := {
  vaultDecimals : option nat;
  assetAddress : option Address;
  paused : option bool;
  availableToDeposit : option N;
  minDep : option N;
  maxDep : option N;
  minWdr : option N;
  maxWdr : option N;
  tokenDecimals : option nat;
  allowance : option N;
  previewDepositQuery : Z -> option N;
  previewRedeemQuery : Z -> option N
}.

(** [useState] of the two inputs, and [isPending] of [useWriteContract] *)
Record Ui : Type := {
  depInput : string;
  redInput : string;
  isWriting : bool
}.

Record Props : Type := {
  account : Account;
  reads : Reads;
  ui : Ui
}.

(** The policy predicates, named as the specification names them. *)
Inductive ViolationKind : Type :=
| VaultPaused
| BelowMinimum
| AboveMaximum
| ExceedsAvailableCapacity.

(** ** The render *)
Section Screen.

(** [parseUnits] of the viem library, which is not part of the repository:
    [None] stands for a thrown exception. *)
Variable parseUnits : string -> nat -> option Z.

Variable p : Props.

(** [isConnected && chainId !== sepolia.id] *)
Definition wrongChain : bool :=
  isConnected (account p) &&
  negb (match chainId (account p) with
        | Some c => N.eqb c sepolia_id
        | None => false
        end).

(** [Number(vaultDecimals ?? 18)] *)
Definition vDec : nat := Js.nullish (vaultDecimals (reads p)) 18%nat.

(** [Number(tokenDecimals ?? 6)] *)
Definition aDec : nat := Js.nullish (tokenDecimals (reads p)) 6%nat.

(** [try { return parseUnits(text || '0', decimals) } catch { return 0n }] *)
Definition parseOrZero (text : string) (decimals : nat) : Z :=
  match parseUnits (Js.or_str text "0") decimals with
  | Some v => v
  | None => 0
  end.

Definition depAmount : Z := parseOrZero (depInput (ui p)) aDec.

Definition redShares : Z := parseOrZero (redInput (ui p)) vDec.



(** [query: { enabled: depAmount > 0n }] *)
Definition previewShares : option N :=
  if depAmount >? 0 then previewDepositQuery (reads p) depAmount else None.

(** [query: { enabled: redShares > 0n }] *)
Definition previewAssets : option N :=
  if redShares >? 0 then previewRedeemQuery (reads p) redShares else None.

(** [minDep && depAmount > 0n && depAmount < minDep] *)
Definition belowMinDep : Js.value :=
  Js.and_then (minDep (reads p))
    (fun m => (depAmount >? 0) && (depAmount <? m)).

(** [maxDep && depAmount > 0n && depAmount > maxDep] *)
Definition aboveMaxDep : Js.value :=
  Js.and_then (maxDep (reads p))
    (fun m => (depAmount >? 0) && (depAmount >? m)).

(** [availableToDeposit && depAmount > availableToDeposit] *)
Definition overAvailDep : Js.value :=
  Js.and_then (availableToDeposit (reads p))
    (fun a => depAmount >? a).

(** [maxWdr && redShares > 0n && previewAssets !== undefined
     && previewAssets > maxWdr] *)
Definition aboveMaxWdr : Js.value :=
  Js.and_then (maxWdr (reads p))
    (fun m => (redShares >? 0) &&
              match previewAssets with
              | Some a => Z.of_N a >? m
              | None => false
              end).

(** [minWdr && redShares > 0n && previewAssets !== undefined
     && previewAssets < minWdr] *)
Definition belowMinWdr : Js.value :=
  Js.and_then (minWdr (reads p))
    (fun m => (redShares >? 0) &&
              match previewAssets with
              | Some a => Z.of_N a <? m
              | None => false
              end).

(** [{paused && (<div> Vault is paused ... </div>)}] *)
Definition pausedBanner : bool := Js.Boolean (paused (reads p)).

(** The red paragraph under the deposit input: the sentences of the flags
    that are truthy, in the order of the source. *)
Definition depositMessages : list string :=
  (if Js.truthy belowMinDep then ["Below min deposit. "] else []) ++
  (if Js.truthy aboveMaxDep then ["Above max deposit. "] else []) ++
  (if Js.truthy overAvailDep then ["Exceeds available to deposit. "] else []).

(** The red paragraph under the redeem input. *)
Definition redeemMessages : list string :=
  (if Js.truthy belowMinWdr then ["Below min withdraw. "] else []) ++
  (if Js.truthy aboveMaxWdr then ["Above max withdraw. "] else []).

(** [disabled] of the deposit button: the [||] chain is truthy exactly
    when one of its operands is. *)
Definition depositDisabled : bool :=
  negb (isConnected (account p))
  || Js.not_str (assetAddress (reads p))
  || (depAmount =? 0)
  || Js.Boolean (paused (reads p))
  || Js.truthy belowMinDep
  || Js.truthy aboveMaxDep
  || Js.truthy overAvailDep
  || wrongChain
  || isWriting (ui p).

(** [disabled] of the redeem button *)
Definition redeemDisabled : bool :=
  negb (isConnected (account p))
  || (redShares =? 0)
  || Js.Boolean (paused (reads p))
  || wrongChain.

(** The violations [Screen] raises for the deposit intent: the paused
    banner and the three deposit flags, collected in the order in which
    the specification lists its predicates. *)
Definition validateDeposit : list ViolationKind :=
  (if pausedBanner then [VaultPaused] else []) ++
  (if Js.truthy belowMinDep then [BelowMinimum] else []) ++
  (if Js.truthy aboveMaxDep then [AboveMaximum] else []) ++
  (if Js.truthy overAvailDep then [ExceedsAvailableCapacity] else []).

(** The violations [Screen] raises for the redeem intent. *)
Definition validateRedeem : list ViolationKind :=
  (if pausedBanner then [VaultPaused] else []) ++
  (if Js.truthy belowMinWdr then [BelowMinimum] else []) ++
  (if Js.truthy aboveMaxWdr then [AboveMaximum] else []).

End Screen.

(** ** The click handlers

    A handler is an [async] function: it runs to its end, or to an exception
    nobody catches.  It is modelled in a writer monad over the events it
    causes, with a completion that is normal or a throw. *)

(** A transaction hash, and the error a rejected promise carries. *)
Definition Hash : Type := N.
Definition Err : Type := string.

(** The three mutations of the ABIs, with their [args]. *)
Inductive Call : Type :=
| approve (spender : Address) (amount : Z)
| deposit (assets : Z) (receiver : Address)
| redeem (shares : Z) (receiver owner : Address).

(** Where a transaction stands on the network at a given moment. *)
Inductive TxStatus : Type :=
| Pending      (* signed and broadcast, in no block yet *)
| Accepted     (* included and successful *)
| Reverted.    (* included and failed *)

(** What [writeContractAsync] does with a call, which the wallet and the
    network decide: the promise is rejected (signature refused, broadcast
    failed, simulation reverted), or it resolves with the hash of the
    transaction that was sent; [st] is the status that transaction has on
    the network at the moment the promise resolves. *)
Inductive Reply : Type :=
| Rejects (e : Err)
| Submits (h : Hash) (st : TxStatus).

Inductive Event : Type :=
| Write (c : Call)                              (* writeContractAsync called *)
| Resolved (c : Call) (h : Hash) (st : TxStatus)  (* its promise resolved *)
| Threw (c : Call) (e : Err)                    (* its promise was rejected *)
| ConsoleLog (label : string) (h : Hash)
| ConsoleError (label : string) (e : Err)
| SetDepInput (s : string)
| SetRedInput (s : string).

Inductive Completion (A : Type) : Type :=
| Normal (a : A)
| Throw (e : Err).

Arguments Normal {A} a.
Arguments Throw {A} e.

Module Async.

Definition t (A : Type) : Type := (list Event * Completion A)%type.

Definition ret {A : Type} (a : A) : t A := ([], Normal a).

Definition bind {A B : Type} (m : t A) (k : A -> t B) : t B :=
  match m with
  | (tr, Normal a) => let (tr', c) := k a in ((tr ++ tr')%list, c)
  | (tr, Throw e) => (tr, Throw e)
  end.

Definition emit (ev : Event) : t unit := ([ev], Normal tt).

(** [try { body } catch (err) { handler(err) }] *)
Definition try_catch {A : Type} (body : t A) (handler : Err -> t A) : t A :=
  match body with
  | (tr, Normal a) => (tr, Normal a)
  | (tr, Throw e) => let (tr', c) := handler e in ((tr ++ tr')%list, c)
  end.

Definition trace {A : Type} (m : t A) : list Event := fst m.

Definition completion {A : Type} (m : t A) : Completion A := snd m.

End Async.

Notation "x <- m ;; k" := (Async.bind m (fun x => k))
  (at level 61, m at next level, right associativity).
Notation "m ;; k" := (Async.bind m (fun _ => k))
  (at level 61, right associativity).

Section Handlers.

Variable parseUnits : string -> nat -> option Z.

(** The wallet and the network behind [useWriteContract]. *)
Variable wallet : Call -> Reply.

Variable p : Props.

(** [await writeContractAsync({ ..., functionName, args })] *)
Definition writeContractAsync (c : Call) : Async.t Hash :=
  match wallet c with
  | Rejects e => ([Write c; Threw c e], Throw e)
  | Submits h st => ([Write c; Resolved c h st], Normal h)
  end.

(** [(allowance ?? 0n) < depAmount] *)
Definition needsApproval : bool :=
  Z.of_N (Js.nullish (allowance (reads p)) 0%N) <? depAmount parseUnits p.

(** [onClick] of the deposit button *)
Definition depositClick : Async.t unit :=
  match address (account p) with
  | Some addr =>
      if Js.not_str (Some addr) || Js.not_str (assetAddress (reads p))
      then Async.ret tt
      else
        Async.try_catch
          ((if needsApproval
            then approveTx <- writeContractAsync
                                (approve VAULT_ADDRESS (depAmount parseUnits p)) ;;
                 Async.emit (ConsoleLog "approve tx" approveTx)
            else Async.ret tt) ;;
           depositTx <- writeContractAsync
                          (deposit (depAmount parseUnits p) addr) ;;
           Async.emit (ConsoleLog "deposit tx" depositTx) ;;
           Async.emit (SetDepInput ""))
          (fun err => Async.emit (ConsoleError "Deposit flow failed" err))
  | None => Async.ret tt
  end.

(** [onClick] of the redeem button *)
Definition redeemClick : Async.t unit :=
  match address (account p) with
  | Some addr =>
      if Js.not_str (Some addr)
      then Async.ret tt
      else
        tx <- writeContractAsync (redeem (redShares parseUnits p) addr addr) ;;
        Async.emit (ConsoleLog "redeem tx" tx) ;;
        Async.emit (SetRedInput "")
  | None => Async.ret tt
  end.

End Handlers.

(** ** Concrete renders

    The states on which the statements below are run. *)

(** A reader for the concrete runs, in place of the library on the texts
    typed there: an unsigned whole number in decimal notation is scaled to
    base units ([parseUnits('1', 6)] is [1000000n]); anything else throws. *)
Fixpoint digits (s : string) (acc : Z) : option Z :=
  match s with
  | EmptyString => Some acc
  | String c s' =>
      let n := N_of_ascii c in
      if ((48 <=? n) && (n <=? 57))%N
      then digits s' (10 * acc + Z.of_N (n - 48))
      else None
  end.

Definition wholeUnits (s : string) (decimals : nat) : option Z :=
  match s with
  | EmptyString => None
  | _ => option_map (fun n => n * 10 ^ Z.of_nat decimals) (digits s 0)
  end.

Module Sample.

Definition user : Address := "0x00000000000000000000000000000000000000A1".

Definition usdc : Address := "0x1c7D4B196Cb0C7B01d743Fbc6116a902379C7238".

Definition connected : Account :=
  {| address := Some user; chainId := Some sepolia_id; isConnected := true |}.

(** Only [asset()] has resolved. *)
Definition loading : Reads :=
  {| vaultDecimals := None; assetAddress := Some usdc; paused := None;
     availableToDeposit := None; minDep := None; maxDep := None;
     minWdr := None; maxWdr := None; tokenDecimals := None;
     allowance := None;
     previewDepositQuery := fun _ => None;
     previewRedeemQuery := fun _ => None |}.

(** Every read has resolved; amounts in base units of a 6-decimals asset. *)
Definition loaded (avail : N) (isPaused : bool) (preview : option N) : Reads :=
  {| vaultDecimals := Some 18%nat; assetAddress := Some usdc;
     paused := Some isPaused;
     availableToDeposit := Some avail;
     minDep := Some 100%N; maxDep := Some 10000000000%N;
     minWdr := Some 100%N; maxWdr := Some 10000%N;
     tokenDecimals := Some 6%nat;
     allowance := Some 0%N;
     previewDepositQuery := fun _ => None;
     previewRedeemQuery := fun _ => preview |}.

Definition typed (dep red : string) : Ui :=
  {| depInput := dep; redInput := red; isWriting := false |}.

(** The user typed [1] in the deposit box before any policy read resolved. *)
Definition depositWhileLoading : Props :=
  {| account := connected; reads := loading; ui := typed "1" "" |}.

(** The user typed [1] in the redeem box before any policy read resolved. *)
Definition redeemWhileLoading : Props :=
  {| account := connected; reads := loading; ui := typed "" "1" |}.

(** The vault is at its cap: [availableToDeposit()] returned [0]. *)
Definition fullVault : Props :=
  {| account := connected; reads := loaded 0 false None; ui := typed "1" "" |}.

(** Every read has resolved, one token is typed in, nothing is violated and
    the allowance is zero. *)
Definition readyToDeposit : Props :=
  {| account := connected; reads := loaded 5000000000 false None;
     ui := typed "1" "" |}.

(** Every read has resolved, one share is typed in and its preview, 5000,
    is within the withdraw limits. *)
Definition readyToRedeem : Props :=
  {| account := connected; reads := loaded 5000000000 false (Some 5000%N);
     ui := typed "" "1" |}.

(** The example of the specification, in whole base units. *)
Definition specExample (amount : string) : Props :=
  {| account := connected;
     reads :=
       {| vaultDecimals := Some 0%nat; assetAddress := Some usdc;
          paused := Some false;
          availableToDeposit := Some 5000%N;
          minDep := Some 100%N; maxDep := Some 10000%N;
          minWdr := None; maxWdr := None;
          tokenDecimals := Some 0%nat;
          allowance := Some 0%N;
          previewDepositQuery := fun _ => None;
          previewRedeemQuery := fun _ => None |};
     ui := typed amount "" |}.

Definition pausedVault : Props :=
  {| account := connected; reads := loaded 5000000000 true None;
     ui := typed "1" "" |}.


(** One share to redeem; [previewRedeem] resolved to 50, below the minimum. *)
Definition redeemBelowMin : Props :=
  {| account := connected; reads := loaded 5000000000 false (Some 50%N);
     ui := typed "" "1" |}.

(** One share to redeem; [previewRedeem] resolved to 20000, above the
    maximum. *)
Definition redeemAboveMax : Props :=
  {| account := connected; reads := loaded 5000000000 false (Some 20000%N);
     ui := typed "" "1" |}.

(** One share to redeem; [previewRedeem] has not resolved. *)
Definition redeemNoPreview : Props :=
  {| account := connected; reads := loaded 5000000000 false None;
     ui := typed "" "1" |}.

(** A wallet that sends every transaction; none is in a block when the
    promise resolves. *)
Definition sendingWallet (c : Call) : Reply :=
  match c with
  | approve _ _ => Submits 1%N Pending
  | deposit _ _ => Submits 2%N Pending
  | redeem _ _ _ => Submits 3%N Pending
  end.

(** The user refuses to sign. *)
Definition rejectingWallet (c : Call) : Reply :=
  Rejects "User rejected the request.".

End Sample.

(** ** Predicates on renders and traces *)

(** The policy fields an action reads. *)
Definition depositPolicyUnresolved (p : Props) : Prop :=
  paused (reads p) = None \/ minDep (reads p) = None \/
  maxDep (reads p) = None \/ availableToDeposit (reads p) = None.

Definition redeemPolicyUnresolved (p : Props) : Prop :=
  paused (reads p) = None \/ minWdr (reads p) = None \/
  maxWdr (reads p) = None.

Definition isDepositWrite (ev : Event) : bool :=
  match ev with
  | Write (deposit _ _) => true
  | _ => false
  end.

(** The approve promise resolved while its transaction was already accepted
    by the network. *)
Definition approvalAccepted (ev : Event) : bool :=
  match ev with
  | Resolved (approve _ _) _ Accepted => true
  | _ => false
  end.

(** The approve promise resolved: the approval was signed and sent. *)
Definition approvalSubmitted (ev : Event) : bool :=
  match ev with
  | Resolved (approve _ _) _ _ => true
  | _ => false
  end.

(** Every deposit call of the trace comes after an event that satisfies
    [seenBefore]. *)
Fixpoint depositOnlyAfter (seenBefore : Event -> bool) (seen : bool)
    (tr : list Event) : bool :=
  match tr with
  | [] => true
  | ev :: tr' =>
      (if isDepositWrite ev then seen else true)
      && depositOnlyAfter seenBefore (seen || seenBefore ev) tr'
  end.

Ltac run_handler :=
  repeat match goal with
         | |- context [match ?w ?c with Rejects _ => _ | Submits _ _ => _ end] =>
             destruct (w c) eqn:?
         | |- context [if ?b then _ else _] => destruct b eqn:?
         end;
  cbn.

Definition isConsoleError (ev : Event) : bool :=
  match ev with
  | ConsoleError _ _ => true
  | _ => false
  end.

(** The same render with the [decimals()] read of the asset resolved (or
    not). *)
Definition withTokenDecimals (d : option nat) (p : Props) : Props :=
  {| account := account p;
     reads :=
       {| vaultDecimals := vaultDecimals (reads p);
          assetAddress := assetAddress (reads p);
          paused := paused (reads p);
          availableToDeposit := availableToDeposit (reads p);
          minDep := minDep (reads p);
          maxDep := maxDep (reads p);
          minWdr := minWdr (reads p);
          maxWdr := maxWdr (reads p);
          tokenDecimals := d;
          allowance := allowance (reads p);
          previewDepositQuery := previewDepositQuery (reads p);
          previewRedeemQuery := previewRedeemQuery (reads p) |};
     ui := ui p |}.

(** The same render with [isPending] of [useWriteContract] set. *)
Definition withWriting (b : bool) (p : Props) : Props :=
  {| account := account p;
     reads := reads p;
     ui := {| depInput := depInput (ui p);
              redInput := redInput (ui p);
              isWriting := b |} |}.


Definition isApprove (c : Call) : bool :=
  match c with
  | approve _ _ => true
  | _ => false
  end.

Definition isDeposit (c : Call) : bool :=
  match c with
  | deposit _ _ => true
  | _ => false
  end.

Definition isRedeem (c : Call) : bool :=
  match c with
  | redeem _ _ _ => true
  | _ => false
  end.

(** How many calls of a kind a trace issues. *)
Definition countWrites (kind : Call -> bool) (tr : list Event) : nat :=
  List.length (List.filter (fun ev => match ev with
                            | Write c => kind c
                            | _ => false
                            end) tr).

Definition isThrew (ev : Event) : bool :=
  match ev with
  | Threw _ _ => true
  | _ => false
  end.

(** ** The cooldown rows of the policy panel *)

(** [String(n)] for the [bigint] of a [uint256] read: its decimal digits. *)
Definition bigintToString (n : N) : string :=
  NilEmpty.string_of_uint (N.to_uint n).

(** [`${depCd ?? 0n} s`] and [`${wdrCd ?? 0n} s`], the values of the rows
    Deposit Cooldown and Withdraw Cooldown. *)
Definition cooldownRow (cd : option N) : string :=
  (bigintToString (Js.nullish cd 0%N) ++ " s")%string.

(** ** Further renders *)

Module Scenario.

(** Text that the reader refuses, typed in the deposit box. *)
Definition garbageTyped : Props :=
  {| account := Sample.connected;
     reads := Sample.loaded 5000000000 false None;
     ui := Sample.typed "abc" "" |}.

(** The wallet is connected to another chain (mainnet). *)
Definition onMainnet : Props :=
  {| account := {| address := Some Sample.user; chainId := Some 1%N;
                   isConnected := true |};
     reads := Sample.loaded 5000000000 false None;
     ui := Sample.typed "1" "1" |}.

(** The allowance already covers the amount typed in. *)
Definition allowanceCovers : Props :=
  {| account := Sample.connected;
     reads :=
       {| vaultDecimals := Some 18%nat; assetAddress := Some Sample.usdc;
          paused := Some false;
          availableToDeposit := Some 5000000000%N;
          minDep := Some 100%N; maxDep := Some 10000000000%N;
          minWdr := Some 100%N; maxWdr := Some 10000%N;
          tokenDecimals := Some 6%nat;
          allowance := Some 1000000%N;
          previewDepositQuery := fun _ => None;
          previewRedeemQuery := fun _ => None |};
     ui := Sample.typed "1" "" |}.

(** [useAccount()] has no address. *)
Definition noAddress : Props :=
  {| account := {| address := None; chainId := Some sepolia_id;
                   isConnected := false |};
     reads := Sample.loaded 5000000000 false None;
     ui := Sample.typed "1" "1" |}.

(** The wallet signs the approval and refuses the deposit. *)
Definition depositRefused (c : Call) : Reply :=
  match c with
  | approve _ _ => Submits 1%N Pending
  | _ => Rejects "User rejected the request."
  end.

(** Every policy read has resolved but [minDepositTx()]; one token and one
    share are typed in. *)
Definition onlyMinDepUnresolved : Props :=
  {| account := Sample.connected;
     reads :=
       {| vaultDecimals := Some 18%nat; assetAddress := Some Sample.usdc;
          paused := Some false;
          availableToDeposit := Some 5000000000%N;
          minDep := None; maxDep := Some 10000000000%N;
          minWdr := Some 100%N; maxWdr := Some 10000%N;
          tokenDecimals := Some 6%nat;
          allowance := Some 0%N;
          previewDepositQuery := fun _ => None;
          previewRedeemQuery := fun _ => Some 5000%N |};
     ui := Sample.typed "1" "1" |}.



(** The vault is paused and one share is typed in; the preview, 5000, is
    within the withdraw limits. *)
Definition pausedWithShares : Props :=
  {| account := Sample.connected;
     reads := Sample.loaded 5000000000 true (Some 5000%N);
     ui := Sample.typed "" "1" |}.


End Scenario.

(** A reader that also takes a minus sign in front of the whole number. *)
Definition signedUnits (s : string) (decimals : nat) : option Z :=
  match s with
  | String "-" s' => option_map Z.opp (wholeUnits s' decimals)
  | _ => wholeUnits s decimals
  end.

(** A minus sign typed in front of the amount. *)
Definition minusOneTyped : Props :=
  {| account := Sample.connected;
     reads := Sample.loaded 5000000000 false None;
     ui := Sample.typed "-1" "" |}.

(** ** Facts about the flags *)

Lemma and_then_undefined (rhs : Z -> bool) :
  Js.truthy (Js.and_then None rhs) = false.
Proof. reflexivity. Qed.

Lemma and_then_zero (rhs : Z -> bool) :
  Js.and_then (Some 0%N) rhs = Js.bigint 0.
Proof. reflexivity. Qed.

Lemma and_then_truthy (x : option N) (rhs : Z -> bool) :
  Js.truthy (Js.and_then x rhs) = true <->
  exists n, x = Some n /\ n <> 0%N /\ rhs (Z.of_N n) = true.
Proof.
  unfold Js.and_then. destruct x as [n|]; simpl.
  - destruct (Z.eqb_spec (Z.of_N n) 0) as [E|E]; simpl.
    + split; [discriminate|]. intros (m & Hm & Hz & _).
      injection Hm as <-. lia.
    + split.
      * intros H. exists n. repeat split; trivial. lia.
      * intros (m & Hm & _ & Hr). injection Hm as <-. exact Hr.
  - split; [discriminate|]. intros (m & Hm & _). discriminate.
Qed.

Lemma and_then_falsy_rhs (x : option N) (rhs : Z -> bool) :
  (forall m, rhs m = false) -> Js.truthy (Js.and_then x rhs) = false.
Proof.
  intros H. destruct (Js.truthy (Js.and_then x rhs)) eqn:E; trivial.
  apply and_then_truthy in E. destruct E as (n & _ & _ & Hr).
  rewrite H in Hr. discriminate.
Qed.

Section FlagFacts.

Variable parseUnits : string -> nat -> option Z.
Variable p : Props.

(** A resolved, non-zero [availableToDeposit] below the amount raises the
    capacity flag. *)
Lemma overAvailDep_nonzero (a : N) :
  availableToDeposit (reads p) = Some a ->
  a <> 0%N ->
  Z.of_N a < depAmount parseUnits p ->
  In ExceedsAvailableCapacity (validateDeposit parseUnits p).
Proof.
  intros Ha Hz Hlt. unfold validateDeposit.
  assert (T : Js.truthy (overAvailDep parseUnits p) = true).
  { apply and_then_truthy. exists a. repeat split; trivial.
    apply Z.gtb_lt. exact Hlt. }
  rewrite T. repeat (apply in_or_app; right). left. reflexivity.
Qed.

(** An [availableToDeposit] of [0n] is itself the value of the capacity
    flag, whatever the amount. *)
Lemma overAvailDep_zero_capacity :
  availableToDeposit (reads p) = Some 0%N ->
  overAvailDep parseUnits p = Js.bigint 0.
Proof. unfold overAvailDep. intros ->. reflexivity. Qed.

(** When the redeem button is enabled. *)
Lemma redeemDisabled_false_iff :
  redeemDisabled parseUnits p = false <->
  isConnected (account p) = true /\
  redShares parseUnits p <> 0 /\
  Js.Boolean (paused (reads p)) = false /\
  wrongChain p = false.
Proof.
  unfold redeemDisabled.
  rewrite !orb_false_iff, negb_false_iff, Z.eqb_neq. tauto.
Qed.

Lemma in_validateDeposit (v : ViolationKind) :
  In v (validateDeposit parseUnits p) <->
  match v with
  | VaultPaused => pausedBanner p = true
  | BelowMinimum => Js.truthy (belowMinDep parseUnits p) = true
  | AboveMaximum => Js.truthy (aboveMaxDep parseUnits p) = true
  | ExceedsAvailableCapacity => Js.truthy (overAvailDep parseUnits p) = true
  end.
Proof.
  unfold validateDeposit.
  destruct (pausedBanner p), (Js.truthy (belowMinDep parseUnits p)),
    (Js.truthy (aboveMaxDep parseUnits p)),
    (Js.truthy (overAvailDep parseUnits p)), v; simpl;
    intuition (discriminate || congruence).
Qed.

Lemma in_validateRedeem (v : ViolationKind) :
  In v (validateRedeem parseUnits p) <->
  match v with
  | VaultPaused => pausedBanner p = true
  | BelowMinimum => Js.truthy (belowMinWdr parseUnits p) = true
  | AboveMaximum => Js.truthy (aboveMaxWdr parseUnits p) = true
  | ExceedsAvailableCapacity => False
  end.
Proof.
  unfold validateRedeem.
  destruct (pausedBanner p), (Js.truthy (belowMinWdr parseUnits p)),
    (Js.truthy (aboveMaxWdr parseUnits p)), v; simpl;
    intuition (discriminate || congruence).
Qed.

(** The wrapper hands on what the library returns, and turns a throw into
    zero. *)
Lemma parseOrZero_returns (text : string) (d : nat) (v : Z) :
  parseUnits (Js.or_str text "0") d = Some v ->
  parseOrZero parseUnits text d = v.
Proof. unfold parseOrZero. intros ->. reflexivity. Qed.

Lemma parseOrZero_throws (text : string) (d : nat) :
  parseUnits (Js.or_str text "0") d = None ->
  parseOrZero parseUnits text d = 0.
Proof. unfold parseOrZero. intros ->. reflexivity. Qed.

Lemma parseOrZero_empty (d : nat) :
  parseOrZero parseUnits "" d = parseOrZero parseUnits "0" d.
Proof. reflexivity. Qed.

End FlagFacts.

(** The example of the specification: 50 is below the minimum, 6000 exceeds
    the available capacity (and stays under the maximum of 10000), 500
    passes. *)
Example specExample_runs :
  validateDeposit wholeUnits (Sample.specExample "50") = [BelowMinimum] /\
  validateDeposit wholeUnits (Sample.specExample "6000")
    = [ExceedsAvailableCapacity] /\
  validateDeposit wholeUnits (Sample.specExample "500") = [].
Proof. repeat split; reflexivity. Qed.

(** ** Policy validation and the action buttons *)

(** C2. With [availableToDeposit()] resolved to [0] (the vault is at its
    cap) and a deposit of one token typed in, the requested amount exceeds
    the available capacity, yet the capacity flag evaluates to the falsy
    [0n]: no capacity violation is raised, no message is shown, and the
    deposit button is enabled. *)
Theorem overAvailDep_misses_zero_capacity :
  availableToDeposit (reads Sample.fullVault) = Some 0%N /\
  depAmount wholeUnits Sample.fullVault = 1000000 /\
  overAvailDep wholeUnits Sample.fullVault = Js.bigint 0 /\
  ~ In ExceedsAvailableCapacity (validateDeposit wholeUnits Sample.fullVault) /\
  depositMessages wholeUnits Sample.fullVault = [] /\
  depositDisabled wholeUnits Sample.fullVault = false.
Proof.
  repeat split; try reflexivity.
  intros H. apply in_validateDeposit in H. discriminate H.
Qed.

(** C8. While the vault reports itself paused, whatever the amount typed
    in, the paused violation is raised (the banner is shown) and the deposit
    button is disabled. *)
Theorem paused_blocks_deposit
    (parseUnits : string -> nat -> option Z) (p : Props) :
  paused (reads p) = Some true ->
  In VaultPaused (validateDeposit parseUnits p) /\
  pausedBanner p = true /\
  depositDisabled parseUnits p = true.
Proof.
  intros H.
  assert (B : pausedBanner p = true) by (unfold pausedBanner; now rewrite H).
  split; [| split]; trivial.
  - apply in_validateDeposit. exact B.
  - unfold depositDisabled. rewrite H. simpl.
    rewrite !orb_true_r. reflexivity.
Qed.

Lemma paused_blocks_deposit_witness :
  paused (reads Sample.pausedVault) = Some true /\
  In VaultPaused (validateDeposit wholeUnits Sample.pausedVault) /\
  pausedBanner Sample.pausedVault = true /\
  depositDisabled wholeUnits Sample.pausedVault = true.
Proof.
  split; [reflexivity |].
  apply (paused_blocks_deposit wholeUnits Sample.pausedVault). reflexivity.
Defined.




(** C3, as the specification states it, fails: with only [asset()] resolved
    and an amount typed in, the deposit button is enabled. *)
Lemma unresolved_policy_does_not_disable :
  ~ (forall (parseUnits : string -> nat -> option Z) (p : Props),
        (depositPolicyUnresolved p -> depositDisabled parseUnits p = true) /\
        (redeemPolicyUnresolved p -> redeemDisabled parseUnits p = true)).
Proof.
  intros H.
  destruct (H wholeUnits Sample.depositWhileLoading) as [Hd _].
  assert (U : depositPolicyUnresolved Sample.depositWhileLoading)
    by (left; reflexivity).
  specialize (Hd U). discriminate Hd.
Qed.

(** C3, amended. An unresolved policy field raises nothing and disables
    nothing, whatever the state of the other fields: its violation is not
    raised, and the deposit button is disabled exactly when one of the other
    operands of its disabled condition holds.  For the redeem button the
    same holds while no withdraw violation is raised. *)
Theorem unresolved_policy_raises_nothing
    (parseUnits : string -> nat -> option Z) (p : Props) :
  (paused (reads p) = None ->
   ~ In VaultPaused (validateDeposit parseUnits p) /\
   ~ In VaultPaused (validateRedeem parseUnits p) /\
   depositDisabled parseUnits p =
     (negb (isConnected (account p))
      || Js.not_str (assetAddress (reads p))
      || (depAmount parseUnits p =? 0)
      || Js.truthy (belowMinDep parseUnits p)
      || Js.truthy (aboveMaxDep parseUnits p)
      || Js.truthy (overAvailDep parseUnits p)
      || wrongChain p
      || isWriting (ui p)) /\
   (Js.truthy (belowMinWdr parseUnits p) = false ->
    Js.truthy (aboveMaxWdr parseUnits p) = false ->
    redeemDisabled parseUnits p =
      (negb (isConnected (account p))
       || (redShares parseUnits p =? 0)
       || wrongChain p))) /\
  (minDep (reads p) = None ->
   ~ In BelowMinimum (validateDeposit parseUnits p) /\
   depositDisabled parseUnits p =
     (negb (isConnected (account p))
      || Js.not_str (assetAddress (reads p))
      || (depAmount parseUnits p =? 0)
      || Js.Boolean (paused (reads p))
      || Js.truthy (aboveMaxDep parseUnits p)
      || Js.truthy (overAvailDep parseUnits p)
      || wrongChain p
      || isWriting (ui p))) /\
  (maxDep (reads p) = None ->
   ~ In AboveMaximum (validateDeposit parseUnits p) /\
   depositDisabled parseUnits p =
     (negb (isConnected (account p))
      || Js.not_str (assetAddress (reads p))
      || (depAmount parseUnits p =? 0)
      || Js.Boolean (paused (reads p))
      || Js.truthy (belowMinDep parseUnits p)
      || Js.truthy (overAvailDep parseUnits p)
      || wrongChain p
      || isWriting (ui p))) /\
  (availableToDeposit (reads p) = None ->
   ~ In ExceedsAvailableCapacity (validateDeposit parseUnits p) /\
   depositDisabled parseUnits p =
     (negb (isConnected (account p))
      || Js.not_str (assetAddress (reads p))
      || (depAmount parseUnits p =? 0)
      || Js.Boolean (paused (reads p))
      || Js.truthy (belowMinDep parseUnits p)
      || Js.truthy (aboveMaxDep parseUnits p)
      || wrongChain p
      || isWriting (ui p))) /\
  (minWdr (reads p) = None ->
   ~ In BelowMinimum (validateRedeem parseUnits p) /\
   (Js.truthy (aboveMaxWdr parseUnits p) = false ->
    redeemDisabled parseUnits p =
      (negb (isConnected (account p))
       || (redShares parseUnits p =? 0)
       || Js.Boolean (paused (reads p))
       || wrongChain p))) /\
  (maxWdr (reads p) = None ->
   ~ In AboveMaximum (validateRedeem parseUnits p) /\
   (Js.truthy (belowMinWdr parseUnits p) = false ->
    redeemDisabled parseUnits p =
      (negb (isConnected (account p))
       || (redShares parseUnits p =? 0)
       || Js.Boolean (paused (reads p))
       || wrongChain p))).
Proof.
  repeat match goal with |- _ /\ _ => split end; intros H.
  - repeat match goal with |- _ /\ _ => split end.
    + intros I. apply in_validateDeposit in I.
      unfold pausedBanner in I. rewrite H in I. discriminate I.
    + intros I. apply in_validateRedeem in I.
      unfold pausedBanner in I. rewrite H in I. discriminate I.
    + unfold depositDisabled. rewrite H. simpl.
      now rewrite orb_false_r.
    + intros _ _. unfold redeemDisabled. rewrite H. simpl.
      now rewrite orb_false_r.
  - assert (F : Js.truthy (belowMinDep parseUnits p) = false)
      by (unfold belowMinDep; now rewrite H).
    split.
    + intros I. apply in_validateDeposit in I. congruence.
    + unfold depositDisabled. rewrite F. now rewrite orb_false_r.
  - assert (F : Js.truthy (aboveMaxDep parseUnits p) = false)
      by (unfold aboveMaxDep; now rewrite H).
    split.
    + intros I. apply in_validateDeposit in I. congruence.
    + unfold depositDisabled. rewrite F. now rewrite orb_false_r.
  - assert (F : Js.truthy (overAvailDep parseUnits p) = false)
      by (unfold overAvailDep; now rewrite H).
    split.
    + intros I. apply in_validateDeposit in I. congruence.
    + unfold depositDisabled. rewrite F. now rewrite orb_false_r.
  - assert (F : Js.truthy (belowMinWdr parseUnits p) = false)
      by (unfold belowMinWdr; now rewrite H).
    split.
    + intros I. apply in_validateRedeem in I. congruence.
    + intros _. reflexivity.
  - assert (F : Js.truthy (aboveMaxWdr parseUnits p) = false)
      by (unfold aboveMaxWdr; now rewrite H).
    split.
    + intros I. apply in_validateRedeem in I. congruence.
    + intros _. reflexivity.
Qed.

(** Only [minDepositTx()] is unresolved, the other reads have resolved and
    nothing is violated: the deposit button is enabled. *)
Lemma unresolved_policy_raises_nothing_witness :
  minDep (reads Scenario.onlyMinDepUnresolved) = None /\
  paused (reads Scenario.onlyMinDepUnresolved) = Some false /\
  maxDep (reads Scenario.onlyMinDepUnresolved) = Some 10000000000%N /\
  ~ In BelowMinimum (validateDeposit wholeUnits Scenario.onlyMinDepUnresolved) /\
  depositDisabled wholeUnits Scenario.onlyMinDepUnresolved = false.
Proof.
  do 3 (split; [reflexivity |]).
  destruct (unresolved_policy_raises_nothing wholeUnits
              Scenario.onlyMinDepUnresolved)
    as (_ & Hmin & _).
  destruct (Hmin eq_refl) as [Hv Hd].
  split; [exact Hv | exact Hd].
Defined.

(** C4, as the specification states it, fails: with a share amount typed in
    and the preview not resolved, the redeem button is enabled. *)
Lemma no_preview_gate_on_redeem :
  ~ (forall (parseUnits : string -> nat -> option Z) (p : Props),
        0 < redShares parseUnits p ->
        previewAssets parseUnits p = None ->
        redeemDisabled parseUnits p = true).
Proof.
  intros H.
  assert (D : redeemDisabled wholeUnits Sample.redeemNoPreview = true).
  { apply H; reflexivity. }
  discriminate D.
Qed.

(** C4, amended. While the redeem preview has not resolved, the minimum and
    maximum withdraw checks raise nothing and show no message, and no gate
    holds the redeem button back: it is enabled exactly when the wallet is
    connected, the share amount is not zero, the vault is not reported
    paused and the chain is right. *)
Theorem redeem_enabled_without_preview
    (parseUnits : string -> nat -> option Z) (p : Props) :
  previewAssets parseUnits p = None ->
  ~ In BelowMinimum (validateRedeem parseUnits p) /\
  ~ In AboveMaximum (validateRedeem parseUnits p) /\
  redeemMessages parseUnits p = [] /\
  (redeemDisabled parseUnits p = false <->
   isConnected (account p) = true /\
   redShares parseUnits p <> 0 /\
   Js.Boolean (paused (reads p)) = false /\
   wrongChain p = false).
Proof.
  intros Hprev.
  assert (Hb : Js.truthy (belowMinWdr parseUnits p) = false).
  { unfold belowMinWdr. rewrite Hprev. apply and_then_falsy_rhs.
    intros m. apply andb_false_r. }
  assert (Ha : Js.truthy (aboveMaxWdr parseUnits p) = false).
  { unfold aboveMaxWdr. rewrite Hprev. apply and_then_falsy_rhs.
    intros m. apply andb_false_r. }
  repeat match goal with |- _ /\ _ => split end.
  - intros I. apply in_validateRedeem in I. congruence.
  - intros I. apply in_validateRedeem in I. congruence.
  - unfold redeemMessages. now rewrite Hb, Ha.
  - apply redeemDisabled_false_iff.
Qed.

Lemma redeem_enabled_without_preview_witness :
  previewAssets wholeUnits Sample.redeemNoPreview = None /\
  redeemMessages wholeUnits Sample.redeemNoPreview = [] /\
  redeemDisabled wholeUnits Sample.redeemNoPreview = false.
Proof.
  split; [reflexivity |].
  destruct (redeem_enabled_without_preview wholeUnits Sample.redeemNoPreview
              eq_refl) as (_ & _ & Hm & Hd).
  split; [exact Hm |].
  apply Hd. repeat split; try reflexivity. discriminate.
Defined.

(** C5. With one share typed in and the preview resolved below the minimum
    withdrawal (resp. above the maximum), the violation is raised and its
    message is shown, yet the redeem button is enabled. *)
Theorem redeem_button_ignores_limits :
  (validateRedeem wholeUnits Sample.redeemBelowMin = [BelowMinimum] /\
   redeemMessages wholeUnits Sample.redeemBelowMin = ["Below min withdraw. "] /\
   redeemDisabled wholeUnits Sample.redeemBelowMin = false) /\
  (validateRedeem wholeUnits Sample.redeemAboveMax = [AboveMaximum] /\
   redeemMessages wholeUnits Sample.redeemAboveMax = ["Above max withdraw. "] /\
   redeemDisabled wholeUnits Sample.redeemAboveMax = false).
Proof. repeat split; reflexivity. Qed.

(** ** The deposit and redeem flows *)

(** C1, as the specification states it, fails: the wallet sends the approve
    transaction, it is pending when the promise resolves, and the deposit
    call is issued next. *)
Lemma deposit_does_not_await_acceptance :
  ~ (forall (parseUnits : string -> nat -> option Z) (wallet : Call -> Reply)
            (p : Props),
        needsApproval parseUnits p = true ->
        depositOnlyAfter approvalAccepted false
          (Async.trace (depositClick parseUnits wallet p)) = true).
Proof.
  intros H.
  assert (D : depositOnlyAfter approvalAccepted false
                (Async.trace (depositClick wholeUnits Sample.sendingWallet
                                Sample.readyToDeposit)) = true).
  { apply H. reflexivity. }
  discriminate D.
Qed.

(** C1, amended. When approval is needed, the deposit call is issued only
    after the approve promise has resolved with a transaction hash, whatever
    the status of that transaction at that moment, and it is issued right
    then; when the approve promise is rejected no deposit call is issued. *)
Theorem deposit_follows_approval_submission
    (parseUnits : string -> nat -> option Z) (wallet : Call -> Reply)
    (p : Props) (addr : Address) :
  address (account p) = Some addr ->
  Js.not_str (Some addr) = false ->
  Js.not_str (assetAddress (reads p)) = false ->
  needsApproval parseUnits p = true ->
  let a := approve VAULT_ADDRESS (depAmount parseUnits p) in
  let d := deposit (depAmount parseUnits p) addr in
  depositOnlyAfter approvalSubmitted false
    (Async.trace (depositClick parseUnits wallet p)) = true /\
  Async.trace (depositClick parseUnits wallet p) =
    match wallet a with
    | Rejects e => [Write a; Threw a e; ConsoleError "Deposit flow failed" e]
    | Submits h st =>
        Write a :: Resolved a h st :: ConsoleLog "approve tx" h :: Write d ::
        match wallet d with
        | Rejects e => [Threw d e; ConsoleError "Deposit flow failed" e]
        | Submits h' st' =>
            [Resolved d h' st'; ConsoleLog "deposit tx" h'; SetDepInput ""]
        end
    end.
Proof.
  intros Haddr Hna Hnb Hneed a d. subst a d.
  unfold depositClick, writeContractAsync.
  rewrite Haddr, Hna, Hnb, Hneed. cbn.
  destruct (wallet (approve VAULT_ADDRESS (depAmount parseUnits p)))
    as [e | h st]; cbn.
  - split; reflexivity.
  - destruct (wallet (deposit (depAmount parseUnits p) addr))
      as [e | h' st']; cbn; split; reflexivity.
Qed.

Lemma deposit_follows_approval_submission_witness :
  address (account Sample.readyToDeposit) = Some Sample.user /\
  Js.not_str (Some Sample.user) = false /\
  Js.not_str (assetAddress (reads Sample.readyToDeposit)) = false /\
  needsApproval wholeUnits Sample.readyToDeposit = true /\
  Async.trace (depositClick wholeUnits Sample.sendingWallet Sample.readyToDeposit) =
    [Write (approve VAULT_ADDRESS 1000000);
     Resolved (approve VAULT_ADDRESS 1000000) 1%N Pending;
     ConsoleLog "approve tx" 1%N;
     Write (deposit 1000000 Sample.user);
     Resolved (deposit 1000000 Sample.user) 2%N Pending;
     ConsoleLog "deposit tx" 2%N;
     SetDepInput ""].
Proof.
  do 4 (split; [reflexivity |]).
  exact (proj2 (deposit_follows_approval_submission wholeUnits
                  Sample.sendingWallet Sample.readyToDeposit Sample.user
                  eq_refl eq_refl eq_refl eq_refl)).
Defined.

Section FlowFacts.

Variable parseUnits : string -> nat -> option Z.
Variable wallet : Call -> Reply.
Variable p : Props.

(** The deposit handler always completes normally: its [catch] takes every
    rejection. *)
Lemma depositClick_completes :
  Async.completion (depositClick parseUnits wallet p) = Normal tt.
Proof.
  unfold depositClick, writeContractAsync.
  destruct (address (account p)) as [addr|]; [| reflexivity].
  run_handler; reflexivity.
Qed.

(** A rejection in the deposit flow ends it: the error is written to the
    console and nothing follows. *)
Lemma depositClick_logs_rejection (c : Call) (e : Err) :
  In (Threw c e) (Async.trace (depositClick parseUnits wallet p)) ->
  exists pre,
    Async.trace (depositClick parseUnits wallet p)
      = (pre ++ [Threw c e; ConsoleError "Deposit flow failed" e])%list.
Proof.
  unfold depositClick, writeContractAsync.
  destruct (address (account p)) as [addr|]; [| intros []].
  run_handler; intros H;
    repeat match goal with
           | H : _ \/ _ |- _ => destruct H
           | H : False |- _ => destruct H
           end;
    try discriminate;
    match goal with
    | H : Threw _ _ = Threw _ _ |- _ => injection H as <- <-
    end;
    first [ eexists [_]; reflexivity | eexists [_; _; _; _]; reflexivity ].
Qed.

(** The redeem handler has no [catch]: it completes with whatever the
    write completes with. *)
Lemma redeemClick_rejected (addr : Address) (e : Err) :
  address (account p) = Some addr ->
  Js.not_str (Some addr) = false ->
  wallet (redeem (redShares parseUnits p) addr addr) = Rejects e ->
  redeemClick parseUnits wallet p =
    ([Write (redeem (redShares parseUnits p) addr addr);
      Threw (redeem (redShares parseUnits p) addr addr) e], Throw e).
Proof.
  intros Ha Hn Hw. unfold redeemClick, writeContractAsync.
  rewrite Ha, Hn, Hw. reflexivity.
Qed.

End FlowFacts.

(** C7. The deposit handler catches every rejection, but the redeem handler
    does not: when the user refuses to sign the redeem transaction, the
    handler completes with the thrown error and nothing is written to the
    console. *)
Theorem redeem_rejection_escapes :
  (forall (parseUnits : string -> nat -> option Z) (wallet : Call -> Reply)
          (p : Props),
      Async.completion (depositClick parseUnits wallet p) = Normal tt) /\
  Async.completion
    (redeemClick wholeUnits Sample.rejectingWallet Sample.readyToRedeem)
    = Throw "User rejected the request." /\
  existsb isConsoleError
    (Async.trace
       (redeemClick wholeUnits Sample.rejectingWallet Sample.readyToRedeem))
    = false /\
  redeemDisabled wholeUnits Sample.readyToRedeem = false.
Proof.
  split; [exact depositClick_completes |].
  repeat split; reflexivity.
Qed.

(** ** Fallback decimals *)

Section WriteArgs.

Variable parseUnits : string -> nat -> option Z.
Variable wallet : Call -> Reply.
Variable p : Props.



End WriteArgs.

(** One token typed in while [decimals()] of an 18-decimals asset is still
    loading is read as 10^6 base units; once the read resolves the same text
    is 10^18 base units. *)
Example fallback_scale_differs :
  depAmount wholeUnits Sample.depositWhileLoading = 10 ^ 6 /\
  depAmount wholeUnits
    (withTokenDecimals (Some 18%nat) Sample.depositWhileLoading) = 10 ^ 18.
Proof. split; reflexivity. Qed.

Section ClickTraces.

Variable parseUnits : string -> nat -> option Z.
Variable wallet : Call -> Reply.
Variable p : Props.



End ClickTraces.



(** ** More on the render: what an enabled button means *)

Section GateFacts.

Variable parseUnits : string -> nat -> option Z.
Variable p : Props.

(** When the deposit button is enabled. *)
Lemma depositDisabled_false_iff :
  depositDisabled parseUnits p = false <->
  isConnected (account p) = true /\
  Js.not_str (assetAddress (reads p)) = false /\
  depAmount parseUnits p <> 0 /\
  Js.Boolean (paused (reads p)) = false /\
  Js.truthy (belowMinDep parseUnits p) = false /\
  Js.truthy (aboveMaxDep parseUnits p) = false /\
  Js.truthy (overAvailDep parseUnits p) = false /\
  wrongChain p = false /\
  isWriting (ui p) = false.
Proof.
  unfold depositDisabled.
  rewrite !orb_false_iff, negb_false_iff, Z.eqb_neq. tauto.
Qed.


(** With an amount of zero the three deposit flags are falsy. *)
Lemma zero_amount_flags :
  depAmount parseUnits p = 0 ->
  Js.truthy (belowMinDep parseUnits p) = false /\
  Js.truthy (aboveMaxDep parseUnits p) = false /\
  Js.truthy (overAvailDep parseUnits p) = false.
Proof.
  intros H. repeat split.
  - unfold belowMinDep. rewrite H. now apply and_then_falsy_rhs.
  - unfold aboveMaxDep. rewrite H. now apply and_then_falsy_rhs.
  - destruct (Js.truthy (overAvailDep parseUnits p)) eqn:E; trivial.
    unfold overAvailDep in E. apply and_then_truthy in E.
    destruct E as (n & _ & _ & Hr). rewrite H in Hr.
    apply Z.gtb_lt in Hr. lia.
Qed.

End GateFacts.



(** X2. Whatever the deposit panel reports disables the deposit button:
    every violation raised for the deposit intent, and every inline message
    shown under the deposit input, comes with a disabled button. *)
Theorem deposit_violation_disables
    (parseUnits : string -> nat -> option Z) (p : Props) :
  validateDeposit parseUnits p <> [] \/ depositMessages parseUnits p <> [] ->
  depositDisabled parseUnits p = true.
Proof.
  intros H.
  destruct (depositDisabled parseUnits p) eqn:E; trivial. exfalso.
  apply depositDisabled_false_iff in E.
  destruct E as (_ & _ & _ & Hp & Hb & Ha & Ho & _).
  unfold validateDeposit, depositMessages, pausedBanner in H.
  rewrite Hp, Hb, Ha, Ho in H. destruct H as [H | H]; now apply H.
Qed.

Lemma deposit_violation_disables_witness :
  validateDeposit wholeUnits (Sample.specExample "50") = [BelowMinimum] /\
  depositDisabled wholeUnits (Sample.specExample "50") = true.
Proof.
  split; [reflexivity |].
  apply (deposit_violation_disables wholeUnits (Sample.specExample "50")).
  left. discriminate.
Defined.

(** X3. While the vault reports itself paused the redeem button is disabled
    and the paused violation is raised for the redeem intent, whatever the
    share amount and the preview. *)
Theorem paused_blocks_redeem
    (parseUnits : string -> nat -> option Z) (p : Props) :
  paused (reads p) = Some true ->
  In VaultPaused (validateRedeem parseUnits p) /\
  redeemDisabled parseUnits p = true.
Proof.
  intros H. split.
  - apply in_validateRedeem. unfold pausedBanner. now rewrite H.
  - unfold redeemDisabled. rewrite H. simpl.
    rewrite !orb_true_r. reflexivity.
Qed.

(** Paused with one share typed in and a preview within the limits: the
    pause alone disables the button. *)
Lemma paused_blocks_redeem_witness :
  paused (reads Scenario.pausedWithShares) = Some true /\
  redShares wholeUnits Scenario.pausedWithShares = 10 ^ 18 /\
  validateRedeem wholeUnits Scenario.pausedWithShares = [VaultPaused] /\
  In VaultPaused (validateRedeem wholeUnits Scenario.pausedWithShares) /\
  redeemDisabled wholeUnits Scenario.pausedWithShares = true.
Proof.
  do 3 (split; [reflexivity |]).
  apply (paused_blocks_redeem wholeUnits Scenario.pausedWithShares).
  reflexivity.
Defined.

(** X4. A share amount of zero issues no preview read, raises neither the
    minimum nor the maximum withdraw violation, shows no message and leaves
    the redeem button disabled, whatever the cache of the preview read
    holds. *)
Theorem zero_redeem_not_actionable
    (parseUnits : string -> nat -> option Z) (p : Props) :
  redShares parseUnits p = 0 ->
  previewAssets parseUnits p = None /\
  ~ In BelowMinimum (validateRedeem parseUnits p) /\
  ~ In AboveMaximum (validateRedeem parseUnits p) /\
  redeemMessages parseUnits p = [] /\
  redeemDisabled parseUnits p = true.
Proof.
  intros H.
  assert (Hb : Js.truthy (belowMinWdr parseUnits p) = false).
  { unfold belowMinWdr. rewrite H. now apply and_then_falsy_rhs. }
  assert (Ha : Js.truthy (aboveMaxWdr parseUnits p) = false).
  { unfold aboveMaxWdr. rewrite H. now apply and_then_falsy_rhs. }
  repeat match goal with |- _ /\ _ => split end.
  - unfold previewAssets. now rewrite H.
  - intros I. apply in_validateRedeem in I. congruence.
  - intros I. apply in_validateRedeem in I. congruence.
  - unfold redeemMessages. now rewrite Hb, Ha.
  - unfold redeemDisabled. rewrite H. simpl.
    rewrite !orb_true_r. reflexivity.
Qed.

Lemma zero_redeem_not_actionable_witness :
  redShares wholeUnits Sample.readyToDeposit = 0 /\
  previewAssets wholeUnits Sample.readyToDeposit = None /\
  ~ In BelowMinimum (validateRedeem wholeUnits Sample.readyToDeposit) /\
  ~ In AboveMaximum (validateRedeem wholeUnits Sample.readyToDeposit) /\
  redeemMessages wholeUnits Sample.readyToDeposit = [] /\
  redeemDisabled wholeUnits Sample.readyToDeposit = true.
Proof.
  split; [reflexivity |].
  apply (zero_redeem_not_actionable wholeUnits Sample.readyToDeposit).
  reflexivity.
Defined.

(** X5. An enabled action button means the wallet is connected to Sepolia:
    a disconnected wallet, another chain, or a chain id that is not known
    disables both buttons. *)
Theorem enabled_only_on_sepolia
    (parseUnits : string -> nat -> option Z) (p : Props) :
  depositDisabled parseUnits p = false \/ redeemDisabled parseUnits p = false ->
  isConnected (account p) = true /\ chainId (account p) = Some sepolia_id.
Proof.
  intros H.
  assert (G : isConnected (account p) = true /\ wrongChain p = false).
  { destruct H as [H | H].
    - apply depositDisabled_false_iff in H. tauto.
    - apply redeemDisabled_false_iff in H. tauto. }
  destruct G as [Hc Hw]. split; trivial.
  unfold wrongChain in Hw. rewrite Hc in Hw. simpl in Hw.
  apply negb_false_iff in Hw.
  destruct (chainId (account p)) as [c|]; [| discriminate].
  apply N.eqb_eq in Hw. now subst.
Qed.

Lemma enabled_only_on_sepolia_witness :
  depositDisabled wholeUnits Sample.readyToDeposit = false /\
  isConnected (account Sample.readyToDeposit) = true /\
  chainId (account Sample.readyToDeposit) = Some sepolia_id.
Proof.
  split; [reflexivity |].
  apply (enabled_only_on_sepolia wholeUnits Sample.readyToDeposit).
  left. reflexivity.
Defined.

(** X6. A pending write disables the deposit button and only that one: the
    redeem button is in the same state whether a write is pending or not. *)
Theorem pending_write_blocks_deposit_only
    (parseUnits : string -> nat -> option Z) (p : Props) (b : bool) :
  depositDisabled parseUnits (withWriting true p) = true /\
  redeemDisabled parseUnits (withWriting b p) = redeemDisabled parseUnits p.
Proof.
  split.
  - unfold depositDisabled. simpl. apply orb_true_r.
  - reflexivity.
Qed.

(** X7. Text the library refuses is an amount of zero: no preview read is
    issued, none of the minimum, maximum and capacity violations is raised,
    no message is shown and the deposit button is disabled. *)
Theorem refused_text_is_zero
    (parseUnits : string -> nat -> option Z) (p : Props) :
  parseUnits (Js.or_str (depInput (ui p)) "0") (aDec p) = None ->
  depAmount parseUnits p = 0 /\
  previewShares parseUnits p = None /\
  ~ In BelowMinimum (validateDeposit parseUnits p) /\
  ~ In AboveMaximum (validateDeposit parseUnits p) /\
  ~ In ExceedsAvailableCapacity (validateDeposit parseUnits p) /\
  depositMessages parseUnits p = [] /\
  depositDisabled parseUnits p = true.
Proof.
  intros H.
  assert (Z0 : depAmount parseUnits p = 0)
    by (unfold depAmount; now apply parseOrZero_throws).
  destruct (zero_amount_flags parseUnits p Z0) as (Hb & Ha & Ho).
  repeat match goal with |- _ /\ _ => split end; trivial.
  - unfold previewShares. now rewrite Z0.
  - intros I. apply in_validateDeposit in I. congruence.
  - intros I. apply in_validateDeposit in I. congruence.
  - intros I. apply in_validateDeposit in I. congruence.
  - unfold depositMessages. now rewrite Hb, Ha, Ho.
  - unfold depositDisabled. rewrite Z0. simpl.
    rewrite !orb_true_r. reflexivity.
Qed.

Lemma refused_text_is_zero_witness :
  wholeUnits (Js.or_str (depInput (ui Scenario.garbageTyped)) "0")
    (aDec Scenario.garbageTyped) = None /\
  depAmount wholeUnits Scenario.garbageTyped = 0 /\
  depositDisabled wholeUnits Scenario.garbageTyped = true.
Proof.
  split; [reflexivity |].
  destruct (refused_text_is_zero wholeUnits Scenario.garbageTyped eq_refl)
    as (Hz & _ & _ & _ & _ & _ & Hd).
  split; [exact Hz | exact Hd].
Defined.

Section FlagMeaning.

Variable parseUnits : string -> nat -> option Z.
Variable p : Props.

Lemma belowMinDep_truthy_iff :
  Js.truthy (belowMinDep parseUnits p) = true <->
  exists m, minDep (reads p) = Some m /\
            0 < depAmount parseUnits p < Z.of_N m.
Proof.
  unfold belowMinDep. rewrite and_then_truthy. split.
  - intros (m & Hm & _ & Hr). exists m. split; trivial.
    apply andb_true_iff in Hr. rewrite Z.gtb_ltb, !Z.ltb_lt in Hr. lia.
  - intros (m & Hm & Hr). exists m. repeat split; trivial; [lia |].
    apply andb_true_iff. rewrite Z.gtb_ltb, !Z.ltb_lt. lia.
Qed.

Lemma aboveMaxDep_truthy_iff :
  Js.truthy (aboveMaxDep parseUnits p) = true <->
  exists m, maxDep (reads p) = Some m /\ m <> 0%N /\
            Z.of_N m < depAmount parseUnits p.
Proof.
  unfold aboveMaxDep. rewrite and_then_truthy. split.
  - intros (m & Hm & Hz & Hr). exists m. repeat split; trivial.
    apply andb_true_iff in Hr. rewrite !Z.gtb_ltb, !Z.ltb_lt in Hr. lia.
  - intros (m & Hm & Hz & Hr). exists m. repeat split; trivial.
    apply andb_true_iff. rewrite !Z.gtb_ltb, !Z.ltb_lt. lia.
Qed.

Lemma overAvailDep_truthy_iff :
  Js.truthy (overAvailDep parseUnits p) = true <->
  exists a, availableToDeposit (reads p) = Some a /\ a <> 0%N /\
            Z.of_N a < depAmount parseUnits p.
Proof.
  unfold overAvailDep. rewrite and_then_truthy. split.
  - intros (a & Ha & Hz & Hr). exists a. repeat split; trivial.
    rewrite Z.gtb_ltb, Z.ltb_lt in Hr. lia.
  - intros (a & Ha & Hz & Hr). exists a. repeat split; trivial.
    rewrite Z.gtb_ltb, Z.ltb_lt. lia.
Qed.

Lemma belowMinWdr_truthy_iff :
  Js.truthy (belowMinWdr parseUnits p) = true <->
  exists m a, minWdr (reads p) = Some m /\
              0 < redShares parseUnits p /\
              previewRedeemQuery (reads p) (redShares parseUnits p) = Some a /\
              (a < m)%N.
Proof.
  unfold belowMinWdr, previewAssets. rewrite and_then_truthy. split.
  - intros (m & Hm & _ & Hr). apply andb_true_iff in Hr.
    destruct Hr as [Hpos Hr]. rewrite Hpos in Hr.
    destruct (previewRedeemQuery (reads p) (redShares parseUnits p))
      as [a|] eqn:Q; [| discriminate].
    exists m, a. rewrite Z.gtb_ltb, Z.ltb_lt in Hpos.
    rewrite Z.ltb_lt in Hr. repeat split; trivial. lia.
  - intros (m & a & Hm & Hpos & Q & Hlt). exists m.
    repeat split; trivial; [lia |].
    assert (G : (redShares parseUnits p >? 0) = true)
      by (rewrite Z.gtb_ltb, Z.ltb_lt; lia).
    rewrite G, Q. simpl. rewrite Z.ltb_lt. lia.
Qed.

Lemma aboveMaxWdr_truthy_iff :
  Js.truthy (aboveMaxWdr parseUnits p) = true <->
  exists m a, maxWdr (reads p) = Some m /\ m <> 0%N /\
              0 < redShares parseUnits p /\
              previewRedeemQuery (reads p) (redShares parseUnits p) = Some a /\
              (m < a)%N.
Proof.
  unfold aboveMaxWdr, previewAssets. rewrite and_then_truthy. split.
  - intros (m & Hm & Hz & Hr). apply andb_true_iff in Hr.
    destruct Hr as [Hpos Hr]. rewrite Hpos in Hr.
    destruct (previewRedeemQuery (reads p) (redShares parseUnits p))
      as [a|] eqn:Q; [| discriminate].
    exists m, a. rewrite Z.gtb_ltb, Z.ltb_lt in Hpos.
    rewrite Z.gtb_ltb, Z.ltb_lt in Hr. repeat split; trivial. lia.
  - intros (m & a & Hm & Hz & Hpos & Q & Hlt). exists m.
    repeat split; trivial.
    assert (G : (redShares parseUnits p >? 0) = true)
      by (rewrite Z.gtb_ltb, Z.ltb_lt; lia).
    rewrite G, Q. simpl. rewrite Z.gtb_ltb, Z.ltb_lt. lia.
Qed.

End FlagMeaning.

(** X8. What each deposit violation means.  The paused violation is raised
    exactly when [isPaused()] resolved to true; the minimum violation exactly
    when the minimum has resolved and the amount is positive and below it;
    the maximum (capacity) violation exactly when the maximum (the available
    capacity) has resolved to a non-zero value that the amount exceeds. *)
Theorem deposit_violations_exact
    (parseUnits : string -> nat -> option Z) (p : Props) :
  (In VaultPaused (validateDeposit parseUnits p) <->
   paused (reads p) = Some true) /\
  (In BelowMinimum (validateDeposit parseUnits p) <->
   exists m, minDep (reads p) = Some m /\
             0 < depAmount parseUnits p < Z.of_N m) /\
  (In AboveMaximum (validateDeposit parseUnits p) <->
   exists m, maxDep (reads p) = Some m /\ m <> 0%N /\
             Z.of_N m < depAmount parseUnits p) /\
  (In ExceedsAvailableCapacity (validateDeposit parseUnits p) <->
   exists a, availableToDeposit (reads p) = Some a /\ a <> 0%N /\
             Z.of_N a < depAmount parseUnits p).
Proof.
  repeat split; rewrite in_validateDeposit;
    try (apply belowMinDep_truthy_iff || apply aboveMaxDep_truthy_iff
         || apply overAvailDep_truthy_iff);
    unfold pausedBanner; destruct (paused (reads p)) as [[|]|]; simpl;
    congruence.
Qed.

(** X9. What each redeem violation means.  The limits are compared with the
    previewed asset amount, never with the share amount: the minimum
    (maximum) withdraw violation is raised exactly when the limit has
    resolved, the share amount is positive, and the preview read for exactly
    that share amount has resolved to an amount below the minimum (above a
    non-zero maximum).  No capacity violation exists for a redeem. *)
Theorem redeem_violations_exact
    (parseUnits : string -> nat -> option Z) (p : Props) :
  (In BelowMinimum (validateRedeem parseUnits p) <->
   exists m a, minWdr (reads p) = Some m /\
               0 < redShares parseUnits p /\
               previewRedeemQuery (reads p) (redShares parseUnits p) = Some a /\
               (a < m)%N) /\
  (In AboveMaximum (validateRedeem parseUnits p) <->
   exists m a, maxWdr (reads p) = Some m /\ m <> 0%N /\
               0 < redShares parseUnits p /\
               previewRedeemQuery (reads p) (redShares parseUnits p) = Some a /\
               (m < a)%N) /\
  ~ In ExceedsAvailableCapacity (validateRedeem parseUnits p).
Proof.
  split; [| split].
  - rewrite in_validateRedeem. apply belowMinWdr_truthy_iff.
  - rewrite in_validateRedeem. apply aboveMaxWdr_truthy_iff.
  - intros I. now apply in_validateRedeem in I.
Qed.



(** ** More on the flows *)

Ltac split_in :=
  repeat match goal with
         | H : _ \/ _ |- _ => destruct H
         | H : False |- _ => destruct H
         | H : In _ _ |- _ => cbn in H
         end.

(** X11. When the allowance that was read covers the amount, no approve
    call is issued: the deposit call is the first event, and the flow ends
    with the cleared input or with the logged rejection. *)
Theorem sufficient_allowance_skips_approval
    (parseUnits : string -> nat -> option Z) (wallet : Call -> Reply)
    (p : Props) (addr : Address) :
  address (account p) = Some addr ->
  Js.not_str (Some addr) = false ->
  Js.not_str (assetAddress (reads p)) = false ->
  needsApproval parseUnits p = false ->
  let d := deposit (depAmount parseUnits p) addr in
  countWrites isApprove (Async.trace (depositClick parseUnits wallet p)) = 0%nat /\
  Async.trace (depositClick parseUnits wallet p) =
    Write d ::
    match wallet d with
    | Rejects e => [Threw d e; ConsoleError "Deposit flow failed" e]
    | Submits h st =>
        [Resolved d h st; ConsoleLog "deposit tx" h; SetDepInput ""]
    end.
Proof.
  intros Haddr Hna Hnb Hneed d. subst d.
  unfold depositClick, writeContractAsync.
  rewrite Haddr, Hna, Hnb, Hneed. cbn.
  destruct (wallet (deposit (depAmount parseUnits p) addr)) as [e | h st];
    cbn; split; reflexivity.
Qed.

Lemma sufficient_allowance_skips_approval_witness :
  needsApproval wholeUnits Scenario.allowanceCovers = false /\
  Async.trace
    (depositClick wholeUnits Sample.sendingWallet Scenario.allowanceCovers) =
    [Write (deposit 1000000 Sample.user);
     Resolved (deposit 1000000 Sample.user) 2%N Pending;
     ConsoleLog "deposit tx" 2%N;
     SetDepInput ""].
Proof.
  split; [reflexivity |].
  exact (proj2 (sufficient_allowance_skips_approval wholeUnits
                  Sample.sendingWallet Scenario.allowanceCovers Sample.user
                  eq_refl eq_refl eq_refl eq_refl)).
Defined.

(** X12. The approval the deposit flow asks for is exact and goes to the
    vault: an approve call is issued exactly for the vault address as
    spender and the deposit amount as amount, and only when that amount
    exceeds the allowance that was read, an allowance that has not resolved
    counting as zero. *)
Theorem approval_is_exact
    (parseUnits : string -> nat -> option Z) (wallet : Call -> Reply)
    (p : Props) (addr : Address) (spender : Address) (amount : Z) :
  address (account p) = Some addr ->
  Js.not_str (Some addr) = false ->
  Js.not_str (assetAddress (reads p)) = false ->
  (In (Write (approve spender amount))
      (Async.trace (depositClick parseUnits wallet p)) <->
   spender = VAULT_ADDRESS /\
   amount = depAmount parseUnits p /\
   Z.of_N (Js.nullish (allowance (reads p)) 0%N) < amount).
Proof.
  intros Haddr Hna Hnb.
  unfold depositClick, writeContractAsync.
  rewrite Haddr, Hna, Hnb. cbn.
  destruct (needsApproval parseUnits p) eqn:Hneed;
    unfold needsApproval in Hneed;
    [apply Z.ltb_lt in Hneed | apply Z.ltb_ge in Hneed].
  - destruct (wallet (approve VAULT_ADDRESS (depAmount parseUnits p)))
      as [e | h st]; cbn;
      [| destruct (wallet (deposit (depAmount parseUnits p) addr))
           as [e | h' st']; cbn];
      (split;
       [ intros H; split_in; try discriminate;
         match goal with
         | H : Write _ = Write _ |- _ => injection H as <- <-
         end; auto
       | intros (-> & -> & _); left; reflexivity ]).
  - destruct (wallet (deposit (depAmount parseUnits p) addr))
      as [e | h' st']; cbn;
      (split;
       [ intros H; split_in; discriminate
       | intros (_ & -> & Hlt); lia ]).
Qed.

Lemma approval_is_exact_witness :
  address (account Sample.readyToDeposit) = Some Sample.user /\
  In (Write (approve VAULT_ADDRESS 1000000))
     (Async.trace
        (depositClick wholeUnits Sample.sendingWallet Sample.readyToDeposit)).
Proof.
  split; [reflexivity |].
  apply (approval_is_exact wholeUnits Sample.sendingWallet
           Sample.readyToDeposit Sample.user VAULT_ADDRESS 1000000
           eq_refl eq_refl eq_refl).
  repeat split.
Defined.

(** X13. The deposit input is cleared exactly when no write of the flow was
    rejected, and the console error is written exactly when one was: a
    failed flow keeps the typed amount. *)
Theorem deposit_input_cleared_on_success_only
    (parseUnits : string -> nat -> option Z) (wallet : Call -> Reply)
    (p : Props) (addr : Address) :
  address (account p) = Some addr ->
  Js.not_str (Some addr) = false ->
  Js.not_str (assetAddress (reads p)) = false ->
  let tr := Async.trace (depositClick parseUnits wallet p) in
  (In (SetDepInput "") tr <-> existsb isThrew tr = false) /\
  (existsb isConsoleError tr = existsb isThrew tr) /\
  (forall s, In (SetDepInput s) tr -> s = "").
Proof.
  intros Haddr Hna Hnb tr. subst tr.
  unfold depositClick, writeContractAsync.
  rewrite Haddr, Hna, Hnb. cbn.
  run_handler;
    (split; [split; [intros H; split_in; try discriminate; reflexivity
                    | intros H; try discriminate H; cbn; tauto]
            | split; [reflexivity
                     | intros s H; split_in; try discriminate;
                       match goal with
                       | H : SetDepInput _ = SetDepInput _ |- _ =>
                           now injection H
                       end]]).
Qed.

Lemma deposit_input_cleared_on_success_only_witness :
  address (account Sample.readyToDeposit) = Some Sample.user /\
  ~ In (SetDepInput "")
      (Async.trace
         (depositClick wholeUnits Scenario.depositRefused
            Sample.readyToDeposit)).
Proof.
  split; [reflexivity |].
  intros H.
  apply (proj1 (deposit_input_cleared_on_success_only wholeUnits
                  Scenario.depositRefused Sample.readyToDeposit Sample.user
                  eq_refl eq_refl eq_refl)) in H.
  discriminate H.
Defined.

(** X14. Neither flow repeats a call: one click issues at most one approve
    and at most one deposit and no redeem, resp. at most one redeem and
    nothing else. *)
Theorem no_call_is_repeated
    (parseUnits : string -> nat -> option Z) (wallet : Call -> Reply)
    (p : Props) :
  (countWrites isApprove (Async.trace (depositClick parseUnits wallet p)) <= 1 /\
   countWrites isDeposit (Async.trace (depositClick parseUnits wallet p)) <= 1 /\
   countWrites isRedeem (Async.trace (depositClick parseUnits wallet p)) = 0)%nat /\
  (countWrites isRedeem (Async.trace (redeemClick parseUnits wallet p)) <= 1 /\
   countWrites isApprove (Async.trace (redeemClick parseUnits wallet p)) = 0 /\
   countWrites isDeposit (Async.trace (redeemClick parseUnits wallet p)) = 0)%nat.
Proof.
  split.
  - unfold depositClick, writeContractAsync.
    destruct (address (account p)) as [addr|]; [| cbn; lia].
    run_handler; lia.
  - unfold redeemClick, writeContractAsync.
    destruct (address (account p)) as [addr|]; [| cbn; lia].
    run_handler; lia.
Qed.

(** X15. Without an account address a click does nothing, and so does a
    click on the deposit button while the asset address is unknown: no call
    is issued, nothing is logged, no input is cleared. *)
Theorem click_without_address_does_nothing
    (parseUnits : string -> nat -> option Z) (wallet : Call -> Reply)
    (p : Props) :
  Js.not_str (address (account p)) = true \/
  Js.not_str (assetAddress (reads p)) = true ->
  depositClick parseUnits wallet p = ([], Normal tt) /\
  (Js.not_str (address (account p)) = true ->
   redeemClick parseUnits wallet p = ([], Normal tt)).
Proof.
  intros H. unfold depositClick, redeemClick. split.
  - destruct (address (account p)) as [addr|]; [| reflexivity].
    destruct H as [H | H]; rewrite H; [| rewrite orb_true_r]; reflexivity.
  - intros H'. destruct (address (account p)) as [addr|]; [| reflexivity].
    now rewrite H'.
Qed.

Lemma click_without_address_does_nothing_witness :
  Js.not_str (address (account Scenario.noAddress)) = true /\
  depositClick wholeUnits Sample.sendingWallet Scenario.noAddress
    = ([], Normal tt) /\
  redeemClick wholeUnits Sample.sendingWallet Scenario.noAddress
    = ([], Normal tt).
Proof.
  split; [reflexivity |].
  destruct (click_without_address_does_nothing wholeUnits Sample.sendingWallet
              Scenario.noAddress (or_introl eq_refl)) as [Hd Hr].
  split; [exact Hd | exact (Hr eq_refl)].
Defined.

(** X16. The redeem flow is one call: the shares are redeemed to the
    connected account, which is also their owner; when the wallet sends the
    transaction its hash is logged and the input is cleared, and when it
    rejects, the input is kept and the rejection is the handler's
    completion. *)
Theorem redeem_flow
    (parseUnits : string -> nat -> option Z) (wallet : Call -> Reply)
    (p : Props) (addr : Address) :
  address (account p) = Some addr ->
  Js.not_str (Some addr) = false ->
  let r := redeem (redShares parseUnits p) addr addr in
  redeemClick parseUnits wallet p =
    match wallet r with
    | Rejects e => ([Write r; Threw r e], Throw e)
    | Submits h st =>
        ([Write r; Resolved r h st; ConsoleLog "redeem tx" h; SetRedInput ""],
         Normal tt)
    end.
Proof.
  intros Haddr Hn r. subst r. unfold redeemClick, writeContractAsync.
  rewrite Haddr, Hn.
  destruct (wallet (redeem (redShares parseUnits p) addr addr)); reflexivity.
Qed.

Lemma redeem_flow_witness :
  address (account Sample.readyToRedeem) = Some Sample.user /\
  redeemClick wholeUnits Sample.sendingWallet Sample.readyToRedeem =
    ([Write (redeem (10 ^ 18) Sample.user Sample.user);
      Resolved (redeem (10 ^ 18) Sample.user Sample.user) 3%N Pending;
      ConsoleLog "redeem tx" 3%N;
      SetRedInput ""], Normal tt).
Proof.
  split; [reflexivity |].
  exact (redeem_flow wholeUnits Sample.sendingWallet Sample.readyToRedeem
           Sample.user eq_refl eq_refl).
Defined.

Section ClickFacts.

Variable parseUnits : string -> nat -> option Z.
Variable p : Props.


End ClickFacts.



(** ** The cooldown rows *)

Lemma string_length_append (s t : string) :
  String.length (s ++ t) = (String.length s + String.length t)%nat.
Proof. induction s as [| c s IH]; simpl; [reflexivity | now rewrite IH]. Qed.

Lemma string_append_cancel_r (t s1 s2 : string) :
  (s1 ++ t = s2 ++ t)%string -> s1 = s2.
Proof.
  revert s2. induction s1 as [| c s1 IH]; intros [| c2 s2] H; simpl in H.
  - reflexivity.
  - apply (f_equal String.length) in H. simpl in H.
    rewrite string_length_append in H. lia.
  - apply (f_equal String.length) in H. simpl in H.
    rewrite string_length_append in H. lia.
  - injection H as -> H. f_equal. now apply IH.
Qed.

Lemma bigintToString_inj (n m : N) :
  bigintToString n = bigintToString m -> n = m.
Proof.
  unfold bigintToString. intros H.
  apply (f_equal NilEmpty.uint_of_string) in H.
  rewrite !NilEmpty.usu in H. injection H as H.
  now apply DecimalN.Unsigned.to_uint_inj.
Qed.

(** X18. A cooldown row tells the cooldown apart from every other one but
    does not tell an unresolved read from a cooldown of zero: two rows show
    the same text exactly when the two reads agree after an unresolved one
    is taken as zero, and the text of an unresolved read is [0 s]. *)
Theorem cooldownRow_shows_unresolved_as_zero (a b : option N) :
  (cooldownRow a = cooldownRow b <-> Js.nullish a 0%N = Js.nullish b 0%N) /\
  cooldownRow None = "0 s" /\
  cooldownRow None = cooldownRow (Some 0%N).
Proof.
  split; [| split; reflexivity].
  unfold cooldownRow. split.
  - intros H. apply string_append_cancel_r in H.
    now apply bigintToString_inj.
  - intros ->. reflexivity.
Qed.

(** ** Amounts below zero *)

(** X19. The component has no sign check of its own.  If the library returns
    a negative amount for the typed text, no preview read is issued, none of
    the minimum, maximum and capacity violations is raised, no message is
    shown, no approval is asked for, and the deposit button is enabled
    exactly when the wallet is connected, the asset address is known, the
    vault is not reported paused, the chain is right and no write is
    pending. *)
Theorem negative_amount_passes_every_check
    (parseUnits : string -> nat -> option Z) (p : Props) :
  depAmount parseUnits p < 0 ->
  previewShares parseUnits p = None /\
  ~ In BelowMinimum (validateDeposit parseUnits p) /\
  ~ In AboveMaximum (validateDeposit parseUnits p) /\
  ~ In ExceedsAvailableCapacity (validateDeposit parseUnits p) /\
  depositMessages parseUnits p = [] /\
  needsApproval parseUnits p = false /\
  (depositDisabled parseUnits p = false <->
   isConnected (account p) = true /\
   Js.not_str (assetAddress (reads p)) = false /\
   Js.Boolean (paused (reads p)) = false /\
   wrongChain p = false /\
   isWriting (ui p) = false).
Proof.
  intros Hneg.
  assert (Hb : Js.truthy (belowMinDep parseUnits p) = false).
  { apply not_true_iff_false. rewrite belowMinDep_truthy_iff.
    intros (m & _ & H). lia. }
  assert (Ha : Js.truthy (aboveMaxDep parseUnits p) = false).
  { apply not_true_iff_false. rewrite aboveMaxDep_truthy_iff.
    intros (m & _ & _ & H). lia. }
  assert (Ho : Js.truthy (overAvailDep parseUnits p) = false).
  { apply not_true_iff_false. rewrite overAvailDep_truthy_iff.
    intros (m & _ & _ & H). lia. }
  repeat match goal with |- _ /\ _ => split end.
  - unfold previewShares.
    destruct (Z.gtb_spec (depAmount parseUnits p) 0); [lia | reflexivity].
  - intros I. apply in_validateDeposit in I. congruence.
  - intros I. apply in_validateDeposit in I. congruence.
  - intros I. apply in_validateDeposit in I. congruence.
  - unfold depositMessages. now rewrite Hb, Ha, Ho.
  - unfold needsApproval. apply Z.ltb_ge. lia.
  - rewrite depositDisabled_false_iff. rewrite Hb, Ha, Ho.
    intuition lia.
Qed.

Lemma negative_amount_passes_every_check_witness :
  depAmount signedUnits minusOneTyped < 0 /\
  validateDeposit signedUnits minusOneTyped = [] /\
  needsApproval signedUnits minusOneTyped = false /\
  depositDisabled signedUnits minusOneTyped = false.
Proof.
  split; [reflexivity |].
  destruct (negative_amount_passes_every_check signedUnits minusOneTyped
              eq_refl) as (_ & _ & _ & _ & _ & Hn & Hd).
  split; [reflexivity | split; [exact Hn |]].
  apply Hd. repeat split.
Defined.
